(** * Base bridge utilities: a shallow embedding of [src/BaseBridge.ts]

    The TypeScript class [BaseBridge] talks to two collaborators, an
    [ethers.Provider] and an optional [ethers.Signer].  Here the class is a
    record of oracles over an abstract world [W]; asynchronous methods are
    computations in a state-and-exception monad that threads the world and
    records every call made to a collaborator.

    Conventions of the embedding:
    - chain ids, minutes and receipt status codes (JS integers) are [Z]; a
      chain id used as a property key names the entry with that number;
    - [bigint] is [Z], with the truncating division of JS written [Z.quot];
    - the two fractional [number] literals (slippage) are binary64 floats;
    - strings are [string]; objects used as lookup tables are [gmap]s;
    - [throw new Error(..)] is [Throw] with one constructor per message. *)

From Stdlib Require Import ZArith Floats Ascii String DecimalString DecimalZ DecimalPos.
From stdpp Require Import gmap strings list.

Set Warnings "-inexact-float".
#[local] Open Scope string_scope.
#[local] Open Scope Z_scope.

(** ** JavaScript primitives used by the source *)

Module JS.

(** ASCII members of [StrWhiteSpaceChar]: TAB, LF, VT, FF, CR and SP.
    Strings are byte strings here, so the non-ASCII white space of
    ECMAScript is not recognised. *)
Definition isWhiteSpace (c : ascii) : bool :=
  let n := nat_of_ascii c in
  ((9 <=? n)%nat && (n <=? 13)%nat) || (n =? 32)%nat.

Fixpoint trimStart (s : string) : string :=
  match s with
  | String c r => if isWhiteSpace c then trimStart r else s
  | EmptyString => EmptyString
  end.

Fixpoint trimEnd (s : string) : string :=
  match s with
  | String c r =>
      match trimEnd r with
      | EmptyString => if isWhiteSpace c then EmptyString else String c EmptyString
      | r' => String c r'
      end
  | EmptyString => EmptyString
  end.

Definition trim (s : string) : string := trimEnd (trimStart s).

(** Value of a digit in the given radix (2, 8 or 16), either letter case. *)
Definition digitValue (radix : Z) (c : ascii) : option Z :=
  let n := Z.of_nat (nat_of_ascii c) in
  let v := if (48 <=? n) && (n <=? 57) then Some (n - 48)
           else if (97 <=? n) && (n <=? 102) then Some (n - 87)
           else if (65 <=? n) && (n <=? 70) then Some (n - 55)
           else None in
  match v with
  | Some d => if d <? radix then Some d else None
  | None => None
  end.

Fixpoint digitsAcc (radix : Z) (s : string) (acc : Z) : option Z :=
  match s with
  | EmptyString => Some acc
  | String c r =>
      match digitValue radix c with
      | Some d => digitsAcc radix r (acc * radix + d)
      | None => None
      end
  end.

(** [NonDecimalIntegerLiteral] after its prefix: one digit at least. *)
Definition nonDecimalDigits (radix : Z) (s : string) : option Z :=
  match s with
  | EmptyString => None
  | _ => digitsAcc radix s 0
  end.

(** [DecimalDigits]: one digit at least, leading zeros allowed. *)
Definition decimalDigits (s : string) : option Z :=
  match NilZero.uint_of_string s with
  | Some d => Some (Z.of_uint d)
  | None => None
  end.

Definition isPrefixChar (lower upper c : ascii) : bool :=
  Ascii.eqb c lower || Ascii.eqb c upper.

(** [BigInt(s)] for a string argument ([StringToBigInt]): [None] is the
    [SyntaxError] the call throws. *)
Definition BigInt (s : string) : option Z :=
  match trim s with
  | EmptyString => Some 0
  | String c r =>
      if Ascii.eqb c "-" then Z.opp <$> decimalDigits r
      else if Ascii.eqb c "+" then decimalDigits r
      else
        match r with
        | String p r' =>
            if Ascii.eqb c "0" && isPrefixChar "x" "X" p then nonDecimalDigits 16 r'
            else if Ascii.eqb c "0" && isPrefixChar "o" "O" p then nonDecimalDigits 8 r'
            else if Ascii.eqb c "0" && isPrefixChar "b" "B" p then nonDecimalDigits 2 r'
            else decimalDigits (String c r)
        | EmptyString => decimalDigits (String c r)
        end
  end.

(** [BigInt.prototype.toString()], radix 10. *)
Definition toString (n : Z) : string := NilZero.string_of_int (Z.to_int n).

(** Truthiness of a string: only the empty string is falsy. *)
Definition truthy (s : string) : bool := negb (String.eqb s "").

(** [a || b] when [a] is a string or [undefined]. *)
Definition orString (a : option string) (b : string) : string :=
  match a with
  | Some s => if truthy s then s else b
  | None => b
  end.

(** [a || b] when [a] is a bigint or [null]: [0n] is falsy. *)
Definition orBigInt (a : option Z) (b : Z) : Z :=
  match a with
  | Some n => if n =? 0 then b else n
  | None => b
  end.

End JS.

(** ** Data model *)

Module BridgeConfig.
Record t := mk {
  sourceChain : Z;
  targetChain : Z;
  bridgeContract : string;
  tokenAddress : string;
  amount : string;
  recipient : string }.
End BridgeConfig.

Inductive Status := pending | confirmed | failed.

Module BridgeStatus.
Record t := mk {
  transactionHash : string;
  status : Status;
  sourceChain : Z;
  targetChain : Z;
  amount : string;
  timestamp : Z }.
End BridgeStatus.

Module GasEstimate.
Record t := mk {
  gasLimit : string;
  gasPrice : string;
  totalCost : string;
  estimatedTime : Z }.
End GasEstimate.

(** The anonymous object type returned by [getOptimalRoute]. *)
Module Route.
Record t := mk {
  route : list Z;
  estimatedTime : Z;
  estimatedCost : string;
  slippage : float }.
End Route.

(** The anonymous object type returned by [calculateBridgeFees]. *)
Module Fees.
Record t := mk {
  bridgeFee : string;
  gasFee : string;
  totalFee : string }.
End Fees.

(** What the source reads of ethers' [FeeData]: [gasPrice : null | bigint]. *)
Module FeeData.
Record t := mk { gasPrice : option Z }.
End FeeData.

(** What the source reads of ethers' [TransactionReceipt]:
    [status : null | number]. *)
Module TransactionReceipt.
Record t := mk { status : option Z }.
End TransactionReceipt.

(** *** Static tables *)

Module SUPPORTED_CHAINS.
Definition ETHEREUM : Z := 1.
Definition BASE : Z := 8453.
Definition OPTIMISM : Z := 10.
Definition ARBITRUM : Z := 42161.
Definition POLYGON : Z := 137.
Definition values : list Z := [ETHEREUM; BASE; OPTIMISM; ARBITRUM; POLYGON].
End SUPPORTED_CHAINS.

Definition BRIDGE_CONTRACTS : gmap Z (gmap Z string) :=
  {[ SUPPORTED_CHAINS.ETHEREUM :=
       {[ SUPPORTED_CHAINS.BASE := "0x3154Cf16ccdb4C6d922629664174b904d80F2C35";
          SUPPORTED_CHAINS.OPTIMISM := "0x99C9fc46f92E8a1c0deC1b1747d010903E884bE1" ]};
     SUPPORTED_CHAINS.BASE :=
       {[ SUPPORTED_CHAINS.ETHEREUM := "0x4200000000000000000000000000000000000010";
          SUPPORTED_CHAINS.OPTIMISM := "0x4200000000000000000000000000000000000007" ]} ]}.

Definition TOKEN_ADDRESSES : gmap string (gmap Z string) :=
  {[ "USDC" :=
       {[ SUPPORTED_CHAINS.ETHEREUM := "0xA0b86a33E6441E6C673C5C9C7C5C5C5C5C5C5C5C";
          SUPPORTED_CHAINS.BASE := "0x833589fCD6eDb6E08f4c7C32D4f71b54bdA02913";
          SUPPORTED_CHAINS.OPTIMISM := "0x7F5c764cBc14f9669B88837ca1490cCa17c31607" ]};
     "WETH" :=
       {[ SUPPORTED_CHAINS.ETHEREUM := "0xC02aaA39b223FE8D0A0e5C4F27eAD9083C756Cc2";
          SUPPORTED_CHAINS.BASE := "0x4200000000000000000000000000000000000006";
          SUPPORTED_CHAINS.OPTIMISM := "0x4200000000000000000000000000000000000006" ]} ]}.

(** [ethers.ZeroAddress]. *)
Definition ZeroAddress : string := "0x0000000000000000000000000000000000000000".

(** [BRIDGE_CONTRACTS[a]?.[b]]: [None] is [undefined]. *)
Definition bridgeContractAt (a b : Z) : option string :=
  BRIDGE_CONTRACTS !! a ≫= (.!! b).

(** [TOKEN_ADDRESSES[symbol]?.[chain]]. *)
Definition tokenAddressAt (symbol : string) (chain : Z) : option string :=
  TOKEN_ADDRESSES !! symbol ≫= (.!! chain).

(** The value of [BRIDGE_CONTRACTS[a]?.[b]] when it is truthy. *)
Definition truthyBridgeContract (a b : Z) : option string :=
  match bridgeContractAt a b with
  | Some addr => if JS.truthy addr then Some addr else None
  | None => None
  end.

(** [isChainSupported]: [Object.values(SUPPORTED_CHAINS).includes(chainId)]. *)
Definition isChainSupported (chainId : Z) : bool :=
  bool_decide (chainId ∈ SUPPORTED_CHAINS.values).

(** ** Effects: collaborators, exceptions and the call trace *)

(** One constructor per [Error] message of the source, plus the two ways a
    call can fail outside the source's own [throw]s. *)
Inductive Error :=
  | BridgeNotSupported (sourceChain targetChain : Z)
      (* `Bridge not supported between chains ${s} and ${t}` *)
  | SignerRequired
      (* 'Signer required for bridge transactions' *)
  | NoRouteFound (fromChain toChain : Z)
      (* `No route found from chain ${f} to ${t}` *)
  | SyntaxError (input : string)
      (* thrown by BigInt on a string that is no integer literal *)
  | Rejected (reason : string).
      (* a collaborator's promise rejected *)

Inductive Outcome (A : Type) :=
  | Return (a : A)
  | Throw (e : Error).
Arguments Return {A} a.
Arguments Throw {A} e.

(** Calls that reach a collaborator, in the order they are made. *)
Inductive Call :=
  | GetFeeData
  | GetTransactionReceipt (transactionHash : string)
  | BridgeETH (contract recipient : string) (targetChain : Z) (value : string)
  | BridgeToken (contract token amount recipient : string) (targetChain : Z).

Module State.
Record t (W : Type) := mk {
  world : W;
  trace : list Call }.
Arguments mk {W} world trace.
Arguments world {W} _.
Arguments trace {W} _.
End State.

Definition M (W A : Type) : Type := State.t W → Outcome A * State.t W.

#[global] Instance M_ret {W} : MRet (M W) :=
  λ A (a : A) s, (Return a, s).

#[global] Instance M_bind {W} : MBind (M W) :=
  λ A B (k : A → M W B) (m : M W A) s,
    match m s with
    | (Return a, s') => k a s'
    | (Throw e, s') => (Throw e, s')
    end.

Definition throw {W A} (e : Error) : M W A := λ s, (Throw e, s).

(** [try { m } catch (error) { h }]. *)
Definition tryCatch {W A} (m : M W A) (h : Error → M W A) : M W A :=
  λ s, match m s with
       | (Return a, s') => (Return a, s')
       | (Throw e, s') => h e s'
       end.

(** A collaborator's method: it answers or rejects, and moves the world.
    The call is appended to the trace before the answer is inspected. *)
Definition perform {W A} (c : Call) (oracle : W → Outcome A * W) : M W A :=
  λ s, let '(o, w') := oracle (State.world s) in
       (o, State.mk w' (State.trace s ++ [c])).

(** [ethers.Provider], as far as the source uses it. *)
Module Provider.
Record t (W : Type) := mk {
  getFeeData : W → Outcome FeeData.t * W;
  getTransactionReceipt : string → W → Outcome (option TransactionReceipt.t) * W }.
Arguments mk {W} _ _.
Arguments getFeeData {W} _ _.
Arguments getTransactionReceipt {W} _ _ _.
End Provider.

(** [ethers.Signer] seen through an [ethers.Contract] bound to it: the two
    methods of [bridgeABI], each resolving to the hash of the transaction
    sent ([tx.hash]). *)
Module Signer.
Record t (W : Type) := mk {
  bridgeETH : string → string → Z → string → W → Outcome string * W;
  bridgeToken : string → string → string → string → Z → W → Outcome string * W }.
Arguments mk {W} _ _.
Arguments bridgeETH {W} _ _ _ _ _ _.
Arguments bridgeToken {W} _ _ _ _ _ _ _.
End Signer.

(** What the source takes from its platform: [ethers.formatEther] on a
    bigint of wei, and [Date.now()]. *)
Module Platform.
Record t (W : Type) := mk {
  formatEther : Z → string;
  now : W → Z }.
Arguments mk {W} _ _.
Arguments formatEther {W} _ _.
Arguments now {W} _ _.
End Platform.

(** ** The class [BaseBridge] *)

Module BaseBridge.
Record t (W : Type) := mk {
  provider : Provider.t W;
  signer : option (Signer.t W) }.
Arguments mk {W} _ _.
Arguments provider {W} _.
Arguments signer {W} _.
End BaseBridge.

Section Methods.

Context {W : Type} (platform : Platform.t W).

Definition DateNow : M W Z :=
  λ s, (Return (Platform.now platform (State.world s)), s).

(** Minutes until confirmation, by target chain. *)
Definition estimatedTimeFor (targetChain : Z) : Z :=
  if targetChain =? SUPPORTED_CHAINS.BASE then 10
  else if targetChain =? SUPPORTED_CHAINS.ETHEREUM then 20
  else 15.

Definition estimateGas (this : BaseBridge.t W) (config : BridgeConfig.t)
  : M W GasEstimate.t :=
  match truthyBridgeContract (BridgeConfig.sourceChain config)
                             (BridgeConfig.targetChain config) with
  | None =>
      throw (BridgeNotSupported (BridgeConfig.sourceChain config)
                                (BridgeConfig.targetChain config))
  | Some bridgeAddress =>
      let gasLimit := "200000" in
      gasPrice ← perform GetFeeData
                   (Provider.getFeeData (BaseBridge.provider this));
      match JS.BigInt gasLimit with
      | None => throw (SyntaxError gasLimit)
      | Some gasLimitBN =>
          let totalCost :=
            Platform.formatEther platform
              (gasLimitBN * JS.orBigInt (FeeData.gasPrice gasPrice) 20000000000) in
          let estimatedTime :=
            estimatedTimeFor (BridgeConfig.targetChain config) in
          mret (GasEstimate.mk
                 gasLimit
                 (JS.orString (JS.toString <$> FeeData.gasPrice gasPrice)
                              "20000000000")
                 totalCost
                 estimatedTime)
      end
  end.

Definition initiateBridge (this : BaseBridge.t W) (config : BridgeConfig.t)
  : M W string :=
  match BaseBridge.signer this with
  | None => throw SignerRequired
  | Some signer =>
      match truthyBridgeContract (BridgeConfig.sourceChain config)
                                 (BridgeConfig.targetChain config) with
      | None =>
          throw (BridgeNotSupported (BridgeConfig.sourceChain config)
                                    (BridgeConfig.targetChain config))
      | Some bridgeAddress =>
          if String.eqb (BridgeConfig.tokenAddress config) ZeroAddress then
            perform (BridgeETH bridgeAddress
                       (BridgeConfig.recipient config)
                       (BridgeConfig.targetChain config)
                       (BridgeConfig.amount config))
                    (Signer.bridgeETH signer bridgeAddress
                       (BridgeConfig.recipient config)
                       (BridgeConfig.targetChain config)
                       (BridgeConfig.amount config))
          else
            perform (BridgeToken bridgeAddress
                       (BridgeConfig.tokenAddress config)
                       (BridgeConfig.amount config)
                       (BridgeConfig.recipient config)
                       (BridgeConfig.targetChain config))
                    (Signer.bridgeToken signer bridgeAddress
                       (BridgeConfig.tokenAddress config)
                       (BridgeConfig.amount config)
                       (BridgeConfig.recipient config)
                       (BridgeConfig.targetChain config))
      end
  end.

(** [receipt.status === 1 ? 'confirmed' : 'failed']. *)
Definition receiptStatus (receipt : TransactionReceipt.t) : Status :=
  match TransactionReceipt.status receipt with
  | Some n => if n =? 1 then confirmed else failed
  | None => failed
  end.

Definition getBridgeStatus (this : BaseBridge.t W)
    (transactionHash : string) (sourceChain : Z) : M W BridgeStatus.t :=
  tryCatch
    (receipt ← perform (GetTransactionReceipt transactionHash)
                 (Provider.getTransactionReceipt (BaseBridge.provider this)
                    transactionHash);
     match receipt with
     | None =>
         timestamp ← DateNow;
         mret (BridgeStatus.mk transactionHash pending sourceChain 0 "0" timestamp)
     | Some receipt =>
         timestamp ← DateNow;
         mret (BridgeStatus.mk transactionHash (receiptStatus receipt)
                sourceChain 0 "0" timestamp)
     end)
    (λ error,
       timestamp ← DateNow;
       mret (BridgeStatus.mk transactionHash failed sourceChain 0 "0" timestamp)).

Definition getOptimalRoute (this : BaseBridge.t W)
    (fromChain toChain : Z) (tokenSymbol amount : string) : M W Route.t :=
  match truthyBridgeContract fromChain toChain with
  | Some bridgeContract =>
      gasEstimate ← estimateGas this
        (BridgeConfig.mk fromChain toChain bridgeContract
           (JS.orString (tokenAddressAt tokenSymbol fromChain) ZeroAddress)
           amount ZeroAddress);
      mret (Route.mk [fromChain; toChain]
             (GasEstimate.estimatedTime gasEstimate)
             (GasEstimate.totalCost gasEstimate)
             0.1%float)
  | None =>
      if negb (fromChain =? SUPPORTED_CHAINS.ETHEREUM)
         && negb (toChain =? SUPPORTED_CHAINS.ETHEREUM)
      then
        mret (Route.mk [fromChain; SUPPORTED_CHAINS.ETHEREUM; toChain]
               45 "0.01" 0.3%float)
      else throw (NoRouteFound fromChain toChain)
  end.

Definition getBridgeHistory (this : BaseBridge.t W)
    (address : string) (limit : Z) : M W (list BridgeStatus.t) :=
  mret [].

End Methods.

(** [calculateBridgeFees] is synchronous and touches neither collaborator:
    it is a function of its arguments alone, and its only failure is the
    [SyntaxError] of [BigInt(amount)]. *)
Definition calculateBridgeFees (amount : string) (sourceChain targetChain : Z)
  : Outcome Fees.t :=
  match JS.BigInt amount with
  | None => Throw (SyntaxError amount)
  | Some amountBN =>
      let bridgeFee := Z.quot (amountBN * 10) 10000 in
      let gasFee :=
        if targetChain =? SUPPORTED_CHAINS.BASE
        then 1000000000000000
        else 5000000000000000 in
      let totalFee := bridgeFee + gasFee in
      Return (Fees.mk (JS.toString bridgeFee) (JS.toString gasFee)
                (JS.toString totalFee))
  end.

(** ** Notions used to state the properties *)

(** The bridge-edge graph: one directed edge per entry of [BRIDGE_CONTRACTS]. *)
Definition edge (a b : Z) : Prop := is_Some (bridgeContractAt a b).

(** A path of one hop or more. *)
Inductive path : Z → Z → Prop :=
  | path_edge a b : edge a b → path a b
  | path_step a b c : edge a b → path b c → path a c.

(** The state a receipt query stands for: no receipt, a receipt whose status
    is [1], any other receipt. *)
Definition receiptState (receipt : option TransactionReceipt.t) : Status :=
  match receipt with
  | None => pending
  | Some r =>
      match TransactionReceipt.status r with
      | Some 1 => confirmed
      | _ => failed
      end
  end.

(** Two calls of [getBridgeStatus] for the same transaction, one after the
    other. *)
Definition getBridgeStatusTwice {W} (platform : Platform.t W)
    (this : BaseBridge.t W) (transactionHash : string) (sourceChain : Z)
  : M W (BridgeStatus.t * BridgeStatus.t) :=
  first ← getBridgeStatus platform this transactionHash sourceChain;
  second ← getBridgeStatus platform this transactionHash sourceChain;
  mret (first, second).

Definition isDigit (c : ascii) : bool :=
  let n := nat_of_ascii c in (48 <=? n)%nat && (n <=? 57)%nat.

Fixpoint allDigits (s : string) : bool :=
  match s with
  | EmptyString => true
  | String c r => isDigit c && allDigits r
  end.

(** ** Concrete collaborators, for the examples

    The world is the number of answers the collaborators have given. *)
Module Example.

Fixpoint dropTrailingZeros (s : string) : string :=
  match s with
  | String c r =>
      match dropTrailingZeros r with
      | EmptyString => if Ascii.eqb c "0" then EmptyString else String c EmptyString
      | r' => String c r'
      end
  | EmptyString => EmptyString
  end.

Fixpoint zeros (n : nat) : string :=
  match n with
  | O => EmptyString
  | S n' => String "0" (zeros n')
  end.

(** A decimal rendering of wei in ether, eighteen fractional digits with
    the trailing zeros dropped; for non-negative amounts. *)
Definition formatEther (wei : Z) : string :=
  let whole := JS.toString (wei `quot` (10 ^ 18)) in
  let digits := JS.toString (wei `rem` (10 ^ 18)) in
  let padded := zeros (18 - String.length digits) ++ digits in
  match dropTrailingZeros padded with
  | EmptyString => whole ++ ".0"
  | fraction => whole ++ "." ++ fraction
  end.

(** The clock stands still while the examples run. *)
Definition platform : Platform.t nat :=
  Platform.mk formatEther (λ _, 1700000000000).

(** Answers every query, always the same way. *)
Definition steadyProvider (gasPrice : option Z)
    (receipt : option TransactionReceipt.t) : Provider.t nat :=
  Provider.mk
    (λ w, (Return (FeeData.mk gasPrice), S w))
    (λ _ w, (Return receipt, S w)).

(** Rejects every query. *)
Definition downProvider : Provider.t nat :=
  Provider.mk
    (λ w, (Throw (Rejected "Network error"), S w))
    (λ _ w, (Throw (Rejected "Network error"), S w)).

(** Rejects the first query it gets and answers all later ones with a
    successful receipt. *)
Definition flakyProvider : Provider.t nat :=
  Provider.mk
    (λ w, (Return (FeeData.mk (Some 20000000000)), S w))
    (λ _ w, match w with
            | O => (Throw (Rejected "Network error"), S w)
            | S _ => (Return (Some (TransactionReceipt.mk (Some 1))), S w)
            end).

(** Answers with the receipt of a reverted transaction. *)
Definition revertedProvider : Provider.t nat :=
  steadyProvider (Some 20000000000) (Some (TransactionReceipt.mk (Some 0))).

Definition signer : Signer.t nat :=
  Signer.mk
    (λ _ _ _ _ w, (Return "0xabcd", S w))
    (λ _ _ _ _ _ w, (Return "0xabcd", S w)).

Definition start : State.t nat := State.mk O [].

Definition ethereumToBase : BridgeConfig.t :=
  BridgeConfig.mk 1 8453 "0x3154Cf16ccdb4C6d922629664174b904d80F2C35"
    ZeroAddress "1000000000000000000"
    "0x1234567890123456789012345678901234567890".

Definition unregisteredToBase : BridgeConfig.t :=
  BridgeConfig.mk 999 8453 "" ZeroAddress "1000000000000000000"
    "0x1234567890123456789012345678901234567890".

End Example.


(** ** Utility functions and route notions *)

(** The object [chainNames] local to [getChainName]. *)
Definition chainNames : gmap Z string :=
  {[ SUPPORTED_CHAINS.ETHEREUM := "Ethereum";
     SUPPORTED_CHAINS.BASE := "Base";
     SUPPORTED_CHAINS.OPTIMISM := "Optimism";
     SUPPORTED_CHAINS.ARBITRUM := "Arbitrum";
     SUPPORTED_CHAINS.POLYGON := "Polygon" ]}.

(** [getChainName]: [chainNames[chainId] || 'Unknown']. *)
Definition getChainName (chainId : Z) : string :=
  JS.orString (chainNames !! chainId) "Unknown".

(** The hops of a route: its pairs of consecutive chains. *)
Fixpoint hops (route : list Z) : list (Z * Z) :=
  match route with
  | a :: rest =>
      match rest with
      | b :: _ => (a, b) :: hops rest
      | [] => []
      end
  | [] => []
  end.

(** A hop [estimateGas] and [initiateBridge] accept: one with a contract. *)
Definition hopSupported (hop : Z * Z) : bool :=
  bool_decide (is_Some (bridgeContractAt hop.1 hop.2)).

(** ** The model on the cases of the test suite *)

Example BigInt_forms :
  JS.BigInt "1000000" = Some 1000000
  ∧ JS.BigInt "  12 " = Some 12
  ∧ JS.BigInt "" = Some 0
  ∧ JS.BigInt "-007" = Some (-7)
  ∧ JS.BigInt "0x1F" = Some 31
  ∧ JS.BigInt "0b102" = None
  ∧ JS.BigInt "-0x10" = None
  ∧ JS.BigInt "1e3" = None.
Proof. split_and!; reflexivity. Qed.

Example isChainSupported_cases :
  isChainSupported 1 = true ∧ isChainSupported 8453 = true
  ∧ isChainSupported 137 = true ∧ isChainSupported 999 = false
  ∧ isChainSupported 0 = false ∧ isChainSupported (-1) = false.
Proof. split_and!; reflexivity. Qed.

Example estimateGas_ethereum_to_base :
  estimateGas Example.platform
    (BaseBridge.mk (Example.steadyProvider (Some 20000000000) None) None)
    Example.ethereumToBase Example.start =
    (Return (GasEstimate.mk "200000" "20000000000" "0.004" 10),
     State.mk 1%nat [GetFeeData]).
Proof. reflexivity. Qed.

(** A quoted price of [0n] is falsy for the cost and truthy, as ["0"], for
    the string. *)
Example estimateGas_zero_price :
  estimateGas Example.platform
    (BaseBridge.mk (Example.steadyProvider (Some 0) None) None)
    Example.ethereumToBase Example.start =
    (Return (GasEstimate.mk "200000" "0" "0.004" 10),
     State.mk 1%nat [GetFeeData]).
Proof. reflexivity. Qed.

Example estimateGas_provider_down :
  estimateGas Example.platform (BaseBridge.mk Example.downProvider None)
    Example.ethereumToBase Example.start =
    (Throw (Rejected "Network error"), State.mk 1%nat [GetFeeData]).
Proof. reflexivity. Qed.

Example initiateBridge_native :
  initiateBridge (BaseBridge.mk Example.downProvider (Some Example.signer))
    Example.ethereumToBase Example.start =
    (Return "0xabcd",
     State.mk 1%nat
       [BridgeETH "0x3154Cf16ccdb4C6d922629664174b904d80F2C35"
          "0x1234567890123456789012345678901234567890" 8453
          "1000000000000000000"]).
Proof. reflexivity. Qed.

Example getOptimalRoute_base_to_optimism :
  getOptimalRoute Example.platform
    (BaseBridge.mk (Example.steadyProvider None None) None)
    8453 10 "USDC" "1000000" Example.start =
    (Return (Route.mk [8453; 10] 15 "0.004" 0.1%float),
     State.mk 1%nat [GetFeeData]).
Proof. reflexivity. Qed.

Example getOptimalRoute_into_ethereum :
  getOptimalRoute Example.platform (BaseBridge.mk Example.downProvider None)
    10 1 "USDC" "1000000" Example.start =
    (Throw (NoRouteFound 10 1), Example.start).
Proof. reflexivity. Qed.

Example getBridgeStatus_flaky_then_confirmed :
  getBridgeStatusTwice Example.platform
    (BaseBridge.mk Example.flakyProvider None) "0xabcd" 1 Example.start =
    (Return (BridgeStatus.mk "0xabcd" failed 1 0 "0" 1700000000000,
             BridgeStatus.mk "0xabcd" confirmed 1 0 "0" 1700000000000),
     State.mk 2%nat
       [GetTransactionReceipt "0xabcd"; GetTransactionReceipt "0xabcd"]).
Proof. reflexivity. Qed.

Example calculateBridgeFees_cases :
  calculateBridgeFees "10000000000000000000" 1 8453 =
    Return (Fees.mk "10000000000000000" "1000000000000000" "11000000000000000")
  ∧ calculateBridgeFees "5000000000000000000" 8453 1 =
      Return (Fees.mk "5000000000000000" "5000000000000000" "10000000000000000")
  ∧ calculateBridgeFees "0" 1 10 =
      Return (Fees.mk "0" "5000000000000000" "5000000000000000")
  ∧ calculateBridgeFees "abc" 1 8453 = Throw (SyntaxError "abc").
Proof. split_and!; reflexivity. Qed.

(** ** Decimal strings: [BigInt] reads back what [toString] prints *)

Lemma isDigit_plain (c : ascii) :
  isDigit c = true →
  JS.isWhiteSpace c = false ∧ Ascii.eqb c "-" = false ∧ Ascii.eqb c "+" = false
  ∧ JS.isPrefixChar "x" "X" c = false ∧ JS.isPrefixChar "o" "O" c = false
  ∧ JS.isPrefixChar "b" "B" c = false.
Proof.
  destruct c as [[] [] [] [] [] [] [] []]; vm_compute; intros H;
    first [ discriminate H | repeat split ].
Qed.

Lemma allDigits_string_of_uint (d : Decimal.uint) :
  allDigits (NilEmpty.string_of_uint d) = true.
Proof. induction d; simpl; auto. Qed.

Lemma trimStart_allDigits (s : string) :
  allDigits s = true → JS.trimStart s = s.
Proof.
  destruct s as [|c r]; simpl; [done|].
  intros [Hc _]%andb_prop. by destruct (isDigit_plain c Hc) as [-> _].
Qed.

Lemma trimEnd_allDigits (s : string) :
  allDigits s = true → JS.trimEnd s = s.
Proof.
  induction s as [|c r IH]; simpl; [done|].
  intros [Hc Hr]%andb_prop. rewrite (IH Hr).
  destruct r; [|done]. by destruct (isDigit_plain c Hc) as [-> _].
Qed.

Lemma BigInt_allDigits (c : ascii) (r : string) :
  allDigits (String c r) = true →
  JS.BigInt (String c r) = JS.decimalDigits (String c r).
Proof.
  intros Hs. unfold JS.BigInt, JS.trim.
  rewrite (trimStart_allDigits _ Hs), (trimEnd_allDigits _ Hs).
  simpl in Hs. apply andb_prop in Hs as [Hc Hr].
  destruct (isDigit_plain c Hc) as (_ & -> & -> & _).
  destruct r as [|p r']; [done|].
  simpl in Hr. apply andb_prop in Hr as [Hp _].
  destruct (isDigit_plain p Hp) as (_ & _ & _ & -> & -> & ->).
  by rewrite !andb_false_r.
Qed.

(** The digits of a positive number: a non-empty string of digits that
    [decimalDigits] reads back. *)
Lemma digits_of_positive (p : positive) :
  ∃ c r,
    NilZero.string_of_uint (Pos.to_uint p) = String c r
    ∧ allDigits (String c r) = true
    ∧ JS.decimalDigits (String c r) = Some (Z.pos p).
Proof.
  pose proof (DecimalPos.Unsigned.to_uint_nonnil p) as Hnil.
  pose proof (NilZero.usu _ Hnil) as Hread.
  pose proof (allDigits_string_of_uint (Pos.to_uint p)) as Hdig.
  assert (NilZero.string_of_uint (Pos.to_uint p)
          = NilEmpty.string_of_uint (Pos.to_uint p)) as Heq
    by (by destruct (Pos.to_uint p)).
  rewrite <- Heq in Hdig.
  destruct (NilZero.string_of_uint (Pos.to_uint p)) as [|c r] eqn:E;
    [done|].
  exists c, r. split_and!; [done|done|].
  unfold JS.decimalDigits. rewrite Hread.
  unfold Z.of_uint. by rewrite DecimalPos.Unsigned.of_to.
Qed.

Lemma BigInt_toString (n : Z) : JS.BigInt (JS.toString n) = Some n.
Proof.
  destruct n as [|p|p]; [done| |]; unfold JS.toString; simpl;
    destruct (digits_of_positive p) as (c & r & -> & Hdig & Hread).
  - by rewrite BigInt_allDigits.
  - unfold JS.BigInt, JS.trim.
    change (JS.trimStart (String "-" (String c r))) with (String "-" (String c r)).
    change (JS.trimEnd (String "-" (String c r)))
      with (match JS.trimEnd (String c r) with
            | EmptyString => String "-" EmptyString
            | r' => String "-" r'
            end).
    rewrite (trimEnd_allDigits _ Hdig).
    change (Ascii.eqb "-" "-") with true. cbv iota.
    by rewrite Hread.
Qed.

(** ** The bridge-contract table *)

Lemma bridgeContractAt_Some (a b : Z) (addr : string) :
  bridgeContractAt a b = Some addr →
  (a = 1 ∧ b = 8453 ∧ addr = "0x3154Cf16ccdb4C6d922629664174b904d80F2C35")
  ∨ (a = 1 ∧ b = 10 ∧ addr = "0x99C9fc46f92E8a1c0deC1b1747d010903E884bE1")
  ∨ (a = 8453 ∧ b = 1 ∧ addr = "0x4200000000000000000000000000000000000010")
  ∨ (a = 8453 ∧ b = 10 ∧ addr = "0x4200000000000000000000000000000000000007").
Proof.
  unfold bridgeContractAt, BRIDGE_CONTRACTS, SUPPORTED_CHAINS.ETHEREUM,
    SUPPORTED_CHAINS.BASE, SUPPORTED_CHAINS.OPTIMISM.
  intros (m & Hm & Hb)%bind_Some.
  apply lookup_insert_Some in Hm as [[<- <-]|[_ Hm]].
  - apply lookup_insert_Some in Hb as [[<- <-]|[_ Hb]]; [by left|].
    apply lookup_singleton_Some in Hb as [<- <-]. right; by left.
  - apply lookup_singleton_Some in Hm as [<- <-].
    apply lookup_insert_Some in Hb as [[<- <-]|[_ Hb]]; [right; right; by left|].
    apply lookup_singleton_Some in Hb as [<- <-]. by do 3 right.
Qed.

(** Every address of the table is a non-empty string, so the truthiness
    test of the source only asks whether the entry exists. *)
Lemma truthyBridgeContract_eq (a b : Z) :
  truthyBridgeContract a b = bridgeContractAt a b.
Proof.
  unfold truthyBridgeContract.
  destruct (bridgeContractAt a b) as [addr|] eqn:E; [|done].
  apply bridgeContractAt_Some in E.
  destruct E as [(_ & _ & ->)|[(_ & _ & ->)|[(_ & _ & ->)|(_ & _ & ->)]]]; done.
Qed.

Lemma no_edge_from_999 (b : Z) : bridgeContractAt 999 b = None.
Proof.
  destruct (bridgeContractAt 999 b) as [addr|] eqn:E; [|done].
  apply bridgeContractAt_Some in E. lia.
Qed.

Lemma no_path_from_999 (b : Z) : ¬ path 999 b.
Proof.
  intros Hp. inversion Hp as [? ? [addr He]|? ? ? [addr He] _]; subst;
    by rewrite no_edge_from_999 in He.
Qed.

(** ** What each method computes *)

Section Properties.

Context {W : Type} (platform : Platform.t W) (this : BaseBridge.t W).

Implicit Types (s : State.t W) (config : BridgeConfig.t).

(** [receiptStatus] tests the status code with [=== 1]; [receiptState]
    classifies it by cases. *)
Lemma receiptStatus_receiptState (r : TransactionReceipt.t) :
  receiptStatus r = receiptState (Some r).
Proof.
  unfold receiptStatus, receiptState.
  destruct (TransactionReceipt.status r) as [n|]; [|done].
  destruct (Z.eqb_spec n 1) as [->|Hne]; [done|].
  destruct n as [|[]|]; congruence.
Qed.

(** One call of [getBridgeStatus] is one receipt query followed by one
    reading of the clock, whatever the provider answers. *)
Lemma getBridgeStatus_run (transactionHash : string) (sourceChain : Z) s :
  getBridgeStatus platform this transactionHash sourceChain s =
    let answer :=
      Provider.getTransactionReceipt (BaseBridge.provider this)
        transactionHash (State.world s) in
    (Return (BridgeStatus.mk transactionHash
               match answer.1 with
               | Return receipt => receiptState receipt
               | Throw _ => failed
               end
               sourceChain 0 "0" (Platform.now platform answer.2)),
     State.mk answer.2
       (State.trace s ++ [GetTransactionReceipt transactionHash])).
Proof.
  unfold getBridgeStatus, tryCatch, perform, DateNow, mbind, M_bind, mret,
    M_ret.
  destruct (Provider.getTransactionReceipt _ _ _) as [[[r|]|e] w']; simpl;
    [by rewrite receiptStatus_receiptState|done|done].
Qed.

(** [estimateGas] reads only the two chain ids of its argument. *)
Lemma estimateGas_ext config config' :
  BridgeConfig.sourceChain config = BridgeConfig.sourceChain config' →
  BridgeConfig.targetChain config = BridgeConfig.targetChain config' →
  estimateGas platform this config = estimateGas platform this config'.
Proof. unfold estimateGas. by intros -> ->. Qed.

(** On a pair of the table, [estimateGas] is the fee-data query followed
    by arithmetic on its answer. *)
Lemma estimateGas_run config s (bridgeAddress : string) :
  bridgeContractAt (BridgeConfig.sourceChain config)
                   (BridgeConfig.targetChain config) = Some bridgeAddress →
  estimateGas platform this config s =
    let answer :=
      Provider.getFeeData (BaseBridge.provider this) (State.world s) in
    (match answer.1 with
     | Return fee =>
         Return (GasEstimate.mk "200000"
                   (JS.orString (JS.toString <$> FeeData.gasPrice fee)
                                "20000000000")
                   (Platform.formatEther platform
                      (200000 * JS.orBigInt (FeeData.gasPrice fee) 20000000000))
                   (estimatedTimeFor (BridgeConfig.targetChain config)))
     | Throw e => Throw e
     end,
     State.mk answer.2 (State.trace s ++ [GetFeeData])).
Proof.
  intros Hentry. unfold estimateGas.
  rewrite truthyBridgeContract_eq, Hentry.
  change (JS.BigInt "200000") with (Some 200000).
  unfold perform, mbind, M_bind, mret, M_ret.
  by destruct (Provider.getFeeData _ _) as [[fee|e] w'].
Qed.

Lemma estimateGas_no_entry config s :
  bridgeContractAt (BridgeConfig.sourceChain config)
                   (BridgeConfig.targetChain config) = None →
  estimateGas platform this config s =
    (Throw (BridgeNotSupported (BridgeConfig.sourceChain config)
                               (BridgeConfig.targetChain config)), s).
Proof.
  intros Hnone. unfold estimateGas.
  by rewrite truthyBridgeContract_eq, Hnone.
Qed.

(** Without a direct entry [getOptimalRoute] asks no collaborator: it
    compares both chain ids with Ethereum's and nothing else. *)
Lemma getOptimalRoute_no_entry (fromChain toChain : Z)
    (tokenSymbol amount : string) s :
  bridgeContractAt fromChain toChain = None →
  getOptimalRoute platform this fromChain toChain tokenSymbol amount s =
    if negb (fromChain =? 1) && negb (toChain =? 1)
    then (Return (Route.mk [fromChain; 1; toChain] 45 "0.01" 0.3%float), s)
    else (Throw (NoRouteFound fromChain toChain), s).
Proof.
  intros Hnone. unfold getOptimalRoute.
  rewrite truthyBridgeContract_eq, Hnone.
  unfold SUPPORTED_CHAINS.ETHEREUM.
  by destruct (negb (fromChain =? 1) && negb (toChain =? 1)).
Qed.

(** With a direct entry [getOptimalRoute] is [estimateGas] on that pair,
    repackaged. *)
Lemma getOptimalRoute_entry (fromChain toChain : Z)
    (tokenSymbol amount : string) config s :
  is_Some (bridgeContractAt fromChain toChain) →
  BridgeConfig.sourceChain config = fromChain →
  BridgeConfig.targetChain config = toChain →
  getOptimalRoute platform this fromChain toChain tokenSymbol amount s =
    match estimateGas platform this config s with
    | (Return g, s') =>
        (Return (Route.mk [fromChain; toChain]
                   (GasEstimate.estimatedTime g)
                   (GasEstimate.totalCost g) 0.1%float), s')
    | (Throw e, s') => (Throw e, s')
    end.
Proof.
  intros [addr Hentry] Hsource Htarget. unfold getOptimalRoute.
  rewrite truthyBridgeContract_eq, Hentry.
  unfold mbind, M_bind, mret, M_ret.
  rewrite (estimateGas_ext _ config) by done.
  by destruct (estimateGas platform this config s) as [[g|e] s'].
Qed.

Lemma supported_source (a b : Z) :
  is_Some (bridgeContractAt a b) → isChainSupported a = true.
Proof.
  intros [addr Hentry]. apply bridgeContractAt_Some in Hentry.
  destruct Hentry as [(-> & _)|[(-> & _)|[(-> & _)|(-> & _)]]]; done.
Qed.

End Properties.

(** ** Fees *)

Lemma calculateBridgeFees_BigInt (amount : string) (n : Z)
    (sourceChain targetChain : Z) :
  JS.BigInt amount = Some n →
  calculateBridgeFees amount sourceChain targetChain =
    let gasFee := if targetChain =? 8453
                  then 1000000000000000 else 5000000000000000 in
    Return (Fees.mk (JS.toString ((n * 10) `quot` 10000))
                    (JS.toString gasFee)
                    (JS.toString ((n * 10) `quot` 10000 + gasFee))).
Proof.
  intros Hparse. unfold calculateBridgeFees. rewrite Hparse. reflexivity.
Qed.

(** C2. For every non-negative integer amount, given as its decimal string,
    [calculateBridgeFees] returns bridgeFee = floor(amount * 10 / 10000),
    gasFee = 1000000000000000 when the target chain is Base (8453) and
    5000000000000000 otherwise, and totalFee = bridgeFee + gasFee.  Amounts
    are unbounded integers, so nothing is lost above 2^64 or 2^128; the
    function has no access to the provider, the signer or the clock. *)
Theorem calculateBridgeFees_spec (n sourceChain targetChain : Z) :
  0 ≤ n →
  calculateBridgeFees (JS.toString n) sourceChain targetChain =
    Return (Fees.mk
              (JS.toString (n * 10 / 10000))
              (if targetChain =? 8453
               then "1000000000000000" else "5000000000000000")
              (JS.toString (n * 10 / 10000 +
                            (if targetChain =? 8453
                             then 1000000000000000 else 5000000000000000)))).
Proof.
  intros Hn.
  rewrite (calculateBridgeFees_BigInt _ n) by apply BigInt_toString.
  rewrite Z.quot_div_nonneg by lia.
  by destruct (targetChain =? 8453).
Qed.

Section Claims.

Context {W : Type} (platform : Platform.t W) (this : BaseBridge.t W).

Implicit Types (s : State.t W) (config : BridgeConfig.t).

(** *** Routes *)

(** C1 (the code at the input of its own test).  No path leads from chain
    999 to chain 888 in the bridge-edge graph, and the test suite expects
    [getOptimalRoute(999, 888, 'USDC', '1000000')] to reject with
    'No route found'; the code returns the route [999, 1, 888] instead. *)
Theorem getOptimalRoute_unreachable_pair_gets_route s :
  ¬ path 999 888
  ∧ getOptimalRoute platform this 999 888 "USDC" "1000000" s =
      (Return (Route.mk [999; 1; 888] 45 "0.01" 0.3%float), s).
Proof.
  split; [apply no_path_from_999|].
  by rewrite getOptimalRoute_no_entry by apply no_edge_from_999.
Qed.

(** C7. For every pair with a direct bridge-contract entry,
    [getOptimalRoute] is the single-hop gas estimate of that pair
    repackaged: it fails exactly when the estimate fails, and whenever the
    provider answers the fee-data query it returns the route
    [fromChain, toChain] with slippage 0.1, the estimate's time and the
    estimate's total cost. *)
Theorem getOptimalRoute_direct (fromChain toChain : Z)
    (tokenSymbol amount : string) config s :
  is_Some (bridgeContractAt fromChain toChain) →
  BridgeConfig.sourceChain config = fromChain →
  BridgeConfig.targetChain config = toChain →
  (∀ e s', estimateGas platform this config s = (Throw e, s') →
     getOptimalRoute platform this fromChain toChain tokenSymbol amount s =
       (Throw e, s'))
  ∧ (∀ fee w',
       Provider.getFeeData (BaseBridge.provider this) (State.world s) =
         (Return fee, w') →
       ∃ g s',
         estimateGas platform this config s = (Return g, s')
         ∧ getOptimalRoute platform this fromChain toChain tokenSymbol
             amount s =
             (Return (Route.mk [fromChain; toChain]
                        (GasEstimate.estimatedTime g)
                        (GasEstimate.totalCost g) 0.1%float), s')).
Proof.
  intros Hentry Hsource Htarget.
  rewrite (getOptimalRoute_entry _ _ _ _ _ _ config) by done.
  split.
  - by intros e s' ->.
  - intros fee w' Hfee. destruct Hentry as [addr Hentry].
    rewrite (estimateGas_run _ _ _ _ addr) by by rewrite Hsource, Htarget.
    cbv zeta. rewrite Hfee. simpl. eauto.
Qed.

(** C9. For every pair without a direct entry whose two chains both
    differ from Ethereum (1), [getOptimalRoute] returns
    [fromChain, 1, toChain] with time 45, cost "0.01" and slippage 0.3,
    without consulting the chain registry, the edges to and from Ethereum,
    or any collaborator. *)
Theorem getOptimalRoute_via_ethereum (fromChain toChain : Z)
    (tokenSymbol amount : string) s :
  bridgeContractAt fromChain toChain = None →
  fromChain ≠ 1 →
  toChain ≠ 1 →
  getOptimalRoute platform this fromChain toChain tokenSymbol amount s =
    (Return (Route.mk [fromChain; 1; toChain] 45 "0.01" 0.3%float), s).
Proof.
  intros Hnone Hfrom Hto.
  rewrite getOptimalRoute_no_entry by done.
  destruct (Z.eqb_spec fromChain 1), (Z.eqb_spec toChain 1); done.
Qed.

(** *** Gas estimates *)

(** C5. For every pair with a bridge-contract entry, [estimateGas] makes
    the fee-data query and, once the provider answers it, returns an
    estimate whose gasLimit is "200000" and whose estimatedTime is 10 for
    target Base (8453), 20 for target Ethereum (1) and 15 otherwise.  A
    rejection of that query is the one way the call can fail on such a
    pair. *)
Theorem estimateGas_supported_pair config s :
  is_Some (bridgeContractAt (BridgeConfig.sourceChain config)
                            (BridgeConfig.targetChain config)) →
  (∀ fee w',
     Provider.getFeeData (BaseBridge.provider this) (State.world s) =
       (Return fee, w') →
     ∃ g,
       estimateGas platform this config s =
         (Return g, State.mk w' (State.trace s ++ [GetFeeData]))
       ∧ GasEstimate.gasLimit g = "200000"
       ∧ GasEstimate.estimatedTime g =
           if BridgeConfig.targetChain config =? 8453 then 10
           else if BridgeConfig.targetChain config =? 1 then 20
           else 15)
  ∧ (∀ e w',
       Provider.getFeeData (BaseBridge.provider this) (State.world s) =
         (Throw e, w') →
       estimateGas platform this config s =
         (Throw e, State.mk w' (State.trace s ++ [GetFeeData]))).
Proof.
  intros [addr Hentry].
  rewrite (estimateGas_run _ _ _ _ addr) by done. cbv zeta.
  split.
  - intros fee w' ->. simpl. eauto.
  - by intros e w' ->.
Qed.

(** C6. For every config whose pair has no bridge-contract entry, and so
    for every source chain outside the registry (999, say), [estimateGas]
    fails with the 'Bridge not supported' error and leaves the state as it
    found it: the trace of collaborator calls is unchanged, so the
    fee-data query is not made. *)
Theorem estimateGas_unsupported_pair config s :
  bridgeContractAt (BridgeConfig.sourceChain config)
                   (BridgeConfig.targetChain config) = None
  ∨ isChainSupported (BridgeConfig.sourceChain config) = false →
  estimateGas platform this config s =
    (Throw (BridgeNotSupported (BridgeConfig.sourceChain config)
                               (BridgeConfig.targetChain config)), s).
Proof.
  intros Hno. apply estimateGas_no_entry.
  destruct Hno as [Hnone|Hunsupported]; [done|].
  destruct (bridgeContractAt _ _) as [addr|] eqn:Hentry; [|done].
  rewrite (supported_source _ (BridgeConfig.targetChain config))
    in Hunsupported; [done|by rewrite Hentry].
Qed.

(** *** Submission *)

(** C8. For every config, [initiateBridge] without a signer fails with
    the 'Signer required' error before anything else: the state, and with
    it the trace of collaborator calls, is unchanged, so no transaction
    was built or sent; this holds for unsupported pairs as well. *)
Theorem initiateBridge_requires_signer config s :
  BaseBridge.signer this = None →
  initiateBridge this config s = (Throw SignerRequired, s).
Proof. intros Hnone. unfold initiateBridge. by rewrite Hnone. Qed.

(** *** Status *)

(** C3. [getBridgeStatus] maps the provider's answer to a state: no
    receipt gives pending, a receipt with status 1 gives confirmed, any
    other receipt gives failed; transactionHash and sourceChain are the
    arguments whatever the provider does.  Two calls in a row report the
    states of their two answers, hence the same state for the same
    answer, and a terminal state both times once a receipt exists. *)
Theorem getBridgeStatus_maps_receipt (transactionHash : string)
    (sourceChain : Z) s :
  (∃ st s',
     getBridgeStatus platform this transactionHash sourceChain s =
       (Return st, s')
     ∧ BridgeStatus.transactionHash st = transactionHash
     ∧ BridgeStatus.sourceChain st = sourceChain
     ∧ ∀ receipt w',
         Provider.getTransactionReceipt (BaseBridge.provider this)
           transactionHash (State.world s) = (Return receipt, w') →
         BridgeStatus.status st = receiptState receipt)
  ∧ (∀ receipt1 w1 receipt2 w2,
       Provider.getTransactionReceipt (BaseBridge.provider this)
         transactionHash (State.world s) = (Return receipt1, w1) →
       Provider.getTransactionReceipt (BaseBridge.provider this)
         transactionHash w1 = (Return receipt2, w2) →
       ∃ st1 st2 s',
         getBridgeStatusTwice platform this transactionHash sourceChain s =
           (Return (st1, st2), s')
         ∧ BridgeStatus.transactionHash st1 = transactionHash
         ∧ BridgeStatus.transactionHash st2 = transactionHash
         ∧ BridgeStatus.sourceChain st1 = sourceChain
         ∧ BridgeStatus.sourceChain st2 = sourceChain
         ∧ BridgeStatus.status st1 = receiptState receipt1
         ∧ BridgeStatus.status st2 = receiptState receipt2
         ∧ (receipt1 = receipt2 →
            BridgeStatus.status st1 = BridgeStatus.status st2)
         ∧ (is_Some receipt1 → is_Some receipt2 →
            BridgeStatus.status st1 ≠ pending
            ∧ BridgeStatus.status st2 ≠ pending)).
Proof.
  split.
  - rewrite getBridgeStatus_run. cbv zeta.
    eexists _, _. split_and!; [done..|].
    by intros receipt w' ->.
  - intros receipt1 w1 receipt2 w2 Hfirst Hsecond.
    unfold getBridgeStatusTwice, mbind, M_bind, mret, M_ret.
    rewrite getBridgeStatus_run. cbv zeta. rewrite Hfirst. simpl.
    rewrite getBridgeStatus_run. cbv zeta. simpl. rewrite Hsecond. simpl.
    eexists _, _, _. split_and!; [done..| |].
    + by intros ->.
    + intros [r1 ->] [r2 ->]. unfold receiptState.
      destruct (TransactionReceipt.status r1) as [[|[]|]|],
               (TransactionReceipt.status r2) as [[|[]|]|]; done.
Qed.

(** C10. [getBridgeStatus] returns for every answer of the provider, a
    rejection included, and never throws: the result has one of the three
    states, the arguments as transactionHash and sourceChain, targetChain
    0, amount "0" and the clock's reading as timestamp; when the provider
    rejects, the state is failed. *)
Theorem getBridgeStatus_total (transactionHash : string) (sourceChain : Z) s :
  ∃ st s',
    getBridgeStatus platform this transactionHash sourceChain s =
      (Return st, s')
    ∧ (BridgeStatus.status st = pending
       ∨ BridgeStatus.status st = confirmed
       ∨ BridgeStatus.status st = failed)
    ∧ BridgeStatus.transactionHash st = transactionHash
    ∧ BridgeStatus.sourceChain st = sourceChain
    ∧ BridgeStatus.targetChain st = 0
    ∧ BridgeStatus.amount st = "0"
    ∧ BridgeStatus.timestamp st = Platform.now platform (State.world s')
    ∧ ∀ e w',
        Provider.getTransactionReceipt (BaseBridge.provider this)
          transactionHash (State.world s) = (Throw e, w') →
        BridgeStatus.status st = failed
        ∧ BridgeStatus.targetChain st = 0
        ∧ BridgeStatus.amount st = "0".
Proof.
  rewrite getBridgeStatus_run. cbv zeta.
  destruct (Provider.getTransactionReceipt _ _ _) as [[receipt|e] w'];
    eexists _, _; (split_and!; [done| |done..]); simpl.
  - destruct (receiptState receipt); auto.
  - auto.
Qed.

(** C4, as the code has it.  When the receipt query is rejected,
    [getBridgeStatus] makes that one query and no other, and returns
    state failed with targetChain 0 and amount "0"; the value returned is
    the one a receipt of a failed transaction gives at the same clock
    reading, so the two cases cannot be told apart from it. *)
Theorem getBridgeStatus_rejection_is_failed_at_once
    (transactionHash : string) (sourceChain : Z) s (e : Error) (w' : W) :
  Provider.getTransactionReceipt (BaseBridge.provider this)
    transactionHash (State.world s) = (Throw e, w') →
  getBridgeStatus platform this transactionHash sourceChain s =
    (Return (BridgeStatus.mk transactionHash failed sourceChain 0 "0"
               (Platform.now platform w')),
     State.mk w' (State.trace s ++ [GetTransactionReceipt transactionHash]))
  ∧ ∀ (other : BaseBridge.t W) (s2 : State.t W)
      (receipt : TransactionReceipt.t) (w2 : W),
      Provider.getTransactionReceipt (BaseBridge.provider other)
        transactionHash (State.world s2) = (Return (Some receipt), w2) →
      receiptState (Some receipt) = failed →
      Platform.now platform w2 = Platform.now platform w' →
      (getBridgeStatus platform other transactionHash sourceChain s2).1 =
      (getBridgeStatus platform this transactionHash sourceChain s).1.
Proof.
  intros Hthrow. rewrite getBridgeStatus_run. cbv zeta. rewrite Hthrow.
  split; [done|].
  intros other s2 receipt w2 Hreceipt Hfailed Hclock.
  rewrite getBridgeStatus_run. cbv zeta. rewrite Hreceipt.
  cbn [fst snd]. by rewrite Hfailed, Hclock.
Qed.

End Claims.

(** ** The theorems at concrete inputs *)

(** 2^128 base units to Base: the fee is 2^128 / 1000, rounded down. *)
Lemma calculateBridgeFees_spec_witness :
  0 ≤ 2 ^ 128
  ∧ calculateBridgeFees "340282366920938463463374607431768211456" 1 8453 =
      Return (Fees.mk "340282366920938463463374607431768211"
                      "1000000000000000"
                      "340282366920938463464374607431768211").
Proof.
  split; [lia|].
  exact (calculateBridgeFees_spec (2 ^ 128) 1 8453 ltac:(lia)).
Defined.

(** Ethereum to Base with a provider that quotes 20 gwei. *)
Lemma getOptimalRoute_direct_witness :
  ∃ g s',
    estimateGas Example.platform
      (BaseBridge.mk (Example.steadyProvider (Some 20000000000) None) None)
      Example.ethereumToBase Example.start = (Return g, s')
    ∧ getOptimalRoute Example.platform
        (BaseBridge.mk (Example.steadyProvider (Some 20000000000) None) None)
        1 8453 "USDC" "1000000" Example.start =
        (Return (Route.mk [1; 8453] (GasEstimate.estimatedTime g)
                   (GasEstimate.totalCost g) 0.1%float), s').
Proof.
  refine (proj2 (getOptimalRoute_direct Example.platform
                   (BaseBridge.mk
                      (Example.steadyProvider (Some 20000000000) None) None)
                   1 8453 "USDC" "1000000" Example.ethereumToBase
                   Example.start _ eq_refl eq_refl)
                (FeeData.mk (Some 20000000000)) 1%nat eq_refl).
  by eexists.
Defined.

(** Optimism to Arbitrum, the multi-hop case of the test suite. *)
Lemma getOptimalRoute_via_ethereum_witness :
  getOptimalRoute Example.platform (BaseBridge.mk Example.downProvider None)
    10 42161 "WETH" "1000000000000000000" Example.start =
    (Return (Route.mk [10; 1; 42161] 45 "0.01" 0.3%float), Example.start).
Proof.
  apply (getOptimalRoute_via_ethereum Example.platform
           (BaseBridge.mk Example.downProvider None) 10 42161 "WETH"
           "1000000000000000000" Example.start); [reflexivity|lia|lia].
Defined.

Lemma estimateGas_supported_pair_witness :
  ∃ g,
    estimateGas Example.platform
      (BaseBridge.mk (Example.steadyProvider (Some 20000000000) None) None)
      Example.ethereumToBase Example.start =
      (Return g, State.mk 1%nat [GetFeeData])
    ∧ GasEstimate.gasLimit g = "200000"
    ∧ GasEstimate.estimatedTime g = 10.
Proof.
  refine (proj1 (estimateGas_supported_pair Example.platform
                   (BaseBridge.mk
                      (Example.steadyProvider (Some 20000000000) None) None)
                   Example.ethereumToBase Example.start _)
                (FeeData.mk (Some 20000000000)) 1%nat eq_refl).
  by eexists.
Defined.

(** Source 999 with a provider that would reject: the query is not made. *)
Lemma estimateGas_unsupported_pair_witness :
  isChainSupported 999 = false
  ∧ estimateGas Example.platform (BaseBridge.mk Example.downProvider None)
      Example.unregisteredToBase Example.start =
      (Throw (BridgeNotSupported 999 8453), State.mk 0%nat []).
Proof.
  split; [reflexivity|].
  apply (estimateGas_unsupported_pair Example.platform
           (BaseBridge.mk Example.downProvider None)
           Example.unregisteredToBase Example.start).
  right. reflexivity.
Defined.

Lemma initiateBridge_requires_signer_witness :
  initiateBridge (BaseBridge.mk Example.downProvider None)
    Example.ethereumToBase Example.start =
    (Throw SignerRequired, State.mk 0%nat []).
Proof.
  apply (initiateBridge_requires_signer
           (BaseBridge.mk Example.downProvider None)
           Example.ethereumToBase Example.start).
  reflexivity.
Defined.

(** Two calls while the transaction is unconfirmed: pending both times. *)
Lemma getBridgeStatus_maps_receipt_witness :
  ∃ st1 st2 s',
    getBridgeStatusTwice Example.platform
      (BaseBridge.mk (Example.steadyProvider None None) None) "0xabcd" 1
      Example.start = (Return (st1, st2), s')
    ∧ BridgeStatus.status st1 = pending
    ∧ BridgeStatus.status st2 = pending.
Proof.
  destruct (proj2 (getBridgeStatus_maps_receipt Example.platform
                     (BaseBridge.mk (Example.steadyProvider None None) None)
                     "0xabcd" 1 Example.start)
                  None 1%nat None 2%nat eq_refl eq_refl)
    as (st1 & st2 & s' & Hrun & _ & _ & _ & _ & Hfirst & Hsecond & _).
  exists st1, st2, s'. split; [exact Hrun|]. split; [exact Hfirst|exact Hsecond].
Defined.

Lemma getBridgeStatus_rejection_is_failed_at_once_witness :
  getBridgeStatus Example.platform (BaseBridge.mk Example.downProvider None)
    "0xabcd" 8453 Example.start =
    (Return (BridgeStatus.mk "0xabcd" failed 8453 0 "0" 1700000000000),
     State.mk 1%nat [GetTransactionReceipt "0xabcd"]).
Proof.
  apply (getBridgeStatus_rejection_is_failed_at_once Example.platform
           (BaseBridge.mk Example.downProvider None) "0xabcd" 8453
           Example.start (Rejected "Network error") 1%nat).
  reflexivity.
Defined.

(** A provider that rejects: a well-formed failed status all the same. *)
Lemma getBridgeStatus_total_witness :
  ∃ st s',
    getBridgeStatus Example.platform (BaseBridge.mk Example.downProvider None)
      "0xabcd" 8453 Example.start = (Return st, s')
    ∧ BridgeStatus.status st = failed
    ∧ BridgeStatus.targetChain st = 0
    ∧ BridgeStatus.amount st = "0".
Proof.
  destruct (getBridgeStatus_total Example.platform
              (BaseBridge.mk Example.downProvider None) "0xabcd" 8453
              Example.start)
    as (st & s' & Hrun & _ & _ & _ & _ & _ & _ & Hthrow).
  exists st, s'. split; [exact Hrun|].
  exact (Hthrow (Rejected "Network error") 1%nat eq_refl).
Defined.

(** C4 as stated fails.  The provider rejects the first receipt query and
    would have answered the second with a successful receipt: the code
    reports failed after the one query, and what it returns is equal to
    what it returns for the receipt of a reverted transaction. *)
Lemma getBridgeStatus_no_retry_counterexample :
  getBridgeStatus Example.platform (BaseBridge.mk Example.flakyProvider None)
    "0xabcd" 1 Example.start =
    (Return (BridgeStatus.mk "0xabcd" failed 1 0 "0" 1700000000000),
     State.mk 1%nat [GetTransactionReceipt "0xabcd"])
  ∧ Provider.getTransactionReceipt Example.flakyProvider "0xabcd" 1%nat =
      (Return (Some (TransactionReceipt.mk (Some 1))), 2%nat)
  ∧ (getBridgeStatus Example.platform
       (BaseBridge.mk Example.revertedProvider None) "0xabcd" 1
       Example.start).1 =
    (getBridgeStatus Example.platform
       (BaseBridge.mk Example.flakyProvider None) "0xabcd" 1
       Example.start).1.
Proof. split_and!; reflexivity. Qed.


(** * Further properties of the code *)

(** ** Support lemmas *)

Lemma toString_truthy (n : Z) : JS.truthy (JS.toString n) = true.
Proof.
  destruct n as [|p|p]; [done| |done].
  unfold JS.toString. simpl.
  by destruct (digits_of_positive p) as (c & r & -> & _).
Qed.

Lemma bridgeContractAt_edges :
  is_Some (bridgeContractAt 1 8453) ∧ is_Some (bridgeContractAt 1 10)
  ∧ is_Some (bridgeContractAt 8453 1) ∧ is_Some (bridgeContractAt 8453 10).
Proof. split_and!; by eexists. Qed.

Lemma bridgeContractAt_is_Some (a b : Z) :
  is_Some (bridgeContractAt a b) ↔
  (a = 1 ∧ b = 8453) ∨ (a = 1 ∧ b = 10) ∨ (a = 8453 ∧ b = 1)
  ∨ (a = 8453 ∧ b = 10).
Proof.
  split.
  - intros [addr Hentry]. apply bridgeContractAt_Some in Hentry. tauto.
  - destruct bridgeContractAt_edges as (? & ? & ? & ?).
    intros [[-> ->]|[[-> ->]|[[-> ->]|[-> ->]]]]; done.
Qed.

Lemma chainNames_Some (c : Z) (name : string) :
  chainNames !! c = Some name →
  (c = 1 ∧ name = "Ethereum") ∨ (c = 8453 ∧ name = "Base")
  ∨ (c = 10 ∧ name = "Optimism") ∨ (c = 42161 ∧ name = "Arbitrum")
  ∨ (c = 137 ∧ name = "Polygon").
Proof.
  unfold chainNames, SUPPORTED_CHAINS.ETHEREUM, SUPPORTED_CHAINS.BASE,
    SUPPORTED_CHAINS.OPTIMISM, SUPPORTED_CHAINS.ARBITRUM,
    SUPPORTED_CHAINS.POLYGON.
  intros Hc.
  repeat (apply lookup_insert_Some in Hc as [[<- <-]|[_ Hc]]; [tauto|]).
  apply lookup_singleton_Some in Hc as [<- <-]. tauto.
Qed.

Lemma isChainSupported_true (c : Z) :
  isChainSupported c = true ↔
  c = 1 ∨ c = 8453 ∨ c = 10 ∨ c = 42161 ∨ c = 137.
Proof.
  unfold isChainSupported, SUPPORTED_CHAINS.values, SUPPORTED_CHAINS.ETHEREUM,
    SUPPORTED_CHAINS.BASE, SUPPORTED_CHAINS.OPTIMISM, SUPPORTED_CHAINS.ARBITRUM,
    SUPPORTED_CHAINS.POLYGON.
  rewrite bool_decide_eq_true, !elem_of_cons, elem_of_nil. tauto.
Qed.

Lemma app_singleton_neq {A} (l : list A) (x : A) : (l ++ [x])%list ≠ l.
Proof.
  intros Heq. apply (f_equal length) in Heq.
  rewrite length_app in Heq. simpl in Heq. lia.
Qed.

(** ** Fees, beyond non-negative decimal amounts *)


(** X2. For a non-negative amount the bridge fee [b] is the amount divided
    by 1000 and rounded down: 1000 * b <= amount < 1000 * (b + 1).  It is
    never more than 0.1% of the amount, it is zero for amounts below 1000
    base units, and the total fee is never below the gas fee. *)
Theorem calculateBridgeFees_fee_bounds (n sourceChain targetChain : Z) :
  0 ≤ n →
  ∃ b g,
    calculateBridgeFees (JS.toString n) sourceChain targetChain =
      Return (Fees.mk (JS.toString b) (JS.toString g) (JS.toString (b + g)))
    ∧ 1000 * b ≤ n < 1000 * (b + 1)
    ∧ (n < 1000 → b = 0)
    ∧ 0 ≤ b
    ∧ g ≤ b + g.
Proof.
  intros Hn.
  rewrite (calculateBridgeFees_BigInt _ n) by apply BigInt_toString.
  cbv zeta. eexists _, _. split; [done|].
  rewrite Z.quot_div_nonneg by lia.
  assert (n * 10 / 10000 = n / 1000) as ->.
  { replace 10000 with (10 * 1000) by lia.
    rewrite (Z.mul_comm n 10). apply Z.div_mul_cancel_l; lia. }
  pose proof (Z.div_mod n 1000 ltac:(lia)) as Hdiv.
  pose proof (Z.mod_pos_bound n 1000 ltac:(lia)) as Hmod.
  split_and!; [lia|lia| |lia|lia].
  intros Hsmall. apply Z.div_small. lia.
Qed.

(** X3. The fees grow with the amount: for amounts a <= b of any sign and
    the same target chain, neither the bridge fee nor the total fee of [a]
    exceeds that of [b]. *)
Theorem calculateBridgeFees_monotone (a b sourceChain targetChain : Z) :
  a ≤ b →
  ∃ fa fb g,
    calculateBridgeFees (JS.toString a) sourceChain targetChain =
      Return (Fees.mk (JS.toString fa) (JS.toString g) (JS.toString (fa + g)))
    ∧ calculateBridgeFees (JS.toString b) sourceChain targetChain =
        Return (Fees.mk (JS.toString fb) (JS.toString g)
                  (JS.toString (fb + g)))
    ∧ fa ≤ fb
    ∧ fa + g ≤ fb + g.
Proof.
  intros Hab.
  rewrite (calculateBridgeFees_BigInt _ a), (calculateBridgeFees_BigInt _ b)
    by apply BigInt_toString.
  cbv zeta. eexists _, _, _. split_and!; [done|done| |].
  - apply Z.quot_le_mono; lia.
  - apply Z.add_le_mono_r, Z.quot_le_mono; lia.
Qed.

(** X4. Negative amounts are not rejected: the bridge fee of [-n] is the
    fee of [n] negated (the division truncates toward zero), so the total
    fee of a negative amount is at most the gas fee. *)
Theorem calculateBridgeFees_negative_amount (n sourceChain targetChain : Z) :
  0 ≤ n →
  ∃ g,
    calculateBridgeFees (JS.toString (- n)) sourceChain targetChain =
      Return (Fees.mk (JS.toString (- (n * 10 / 10000))) (JS.toString g)
                (JS.toString (g - n * 10 / 10000)))
    ∧ g - n * 10 / 10000 ≤ g.
Proof.
  intros Hn.
  rewrite (calculateBridgeFees_BigInt _ (- n)) by apply BigInt_toString.
  cbv zeta. eexists.
  rewrite Z.mul_opp_l, Z.quot_opp_l, Z.quot_div_nonneg by lia.
  split.
  - do 3 f_equal. lia.
  - pose proof (Z.div_pos (n * 10) 10000 ltac:(lia) ltac:(lia)). lia.
Qed.

(** ** The static tables *)

(** X5. Every entry of [BRIDGE_CONTRACTS] joins two different chains of
    [SUPPORTED_CHAINS], and both USDC and WETH have an address on either
    end of it. *)
Theorem bridge_entries_well_formed (a b : Z) :
  is_Some (bridgeContractAt a b) →
  a ≠ b
  ∧ isChainSupported a = true
  ∧ isChainSupported b = true
  ∧ is_Some (tokenAddressAt "USDC" a) ∧ is_Some (tokenAddressAt "USDC" b)
  ∧ is_Some (tokenAddressAt "WETH" a) ∧ is_Some (tokenAddressAt "WETH" b).
Proof.
  intros Hentry. apply bridgeContractAt_is_Some in Hentry.
  destruct Hentry as [[-> ->]|[[-> ->]|[[-> ->]|[-> ->]]]];
    (split_and!; [lia|reflexivity|reflexivity|by eexists..]).
Qed.

(** X6. Reachability in the bridge table: a path of one hop or more leads
    from [a] to [b] exactly when [a] is Ethereum or Base and [b] is
    Ethereum, Base or Optimism.  Nothing leaves Optimism, and Arbitrum and
    Polygon are on no path at all. *)
Theorem path_iff (a b : Z) :
  path a b ↔ (a = 1 ∨ a = 8453) ∧ (b = 1 ∨ b = 8453 ∨ b = 10).
Proof.
  destruct bridgeContractAt_edges as (E1 & E2 & E3 & E4).
  split.
  - induction 1 as [a b Hedge|a b c Hedge _ IH].
    + apply bridgeContractAt_is_Some in Hedge. lia.
    + apply bridgeContractAt_is_Some in Hedge. lia.
  - intros [[-> | ->] [-> | [-> | ->]]].
    + by apply (path_step 1 8453 1); [|apply path_edge].
    + by apply path_edge.
    + by apply path_edge.
    + by apply path_edge.
    + by apply (path_step 8453 1 8453); [|apply path_edge].
    + by apply path_edge.
Qed.

(** ** Chain names *)

(** X7. [getChainName] answers "Unknown" exactly for the chains
    [isChainSupported] rejects, and gives different supported chains
    different names. *)
Theorem getChainName_supported (a b : Z) :
  (getChainName a = "Unknown" ↔ isChainSupported a = false)
  ∧ (isChainSupported a = true → getChainName a = getChainName b → a = b).
Proof.
  assert (∀ c, isChainSupported c = false → getChainName c = "Unknown")
    as Hunknown.
  { intros c Hc. unfold getChainName.
    destruct (chainNames !! c) as [name|] eqn:E; [|done].
    apply chainNames_Some in E.
    assert (isChainSupported c = true) as Hs
      by (apply isChainSupported_true; tauto).
    congruence. }
  assert (∀ c, isChainSupported c = true →
            (c = 1 ∧ getChainName c = "Ethereum")
            ∨ (c = 8453 ∧ getChainName c = "Base")
            ∨ (c = 10 ∧ getChainName c = "Optimism")
            ∨ (c = 42161 ∧ getChainName c = "Arbitrum")
            ∨ (c = 137 ∧ getChainName c = "Polygon")) as Hknown.
  { intros c Hc%isChainSupported_true.
    destruct Hc as [-> | [-> | [-> | [-> | ->]]]]; tauto. }
  split.
  - split; [|apply Hunknown].
    intros Hname. destruct (isChainSupported a) eqn:Hs; [|done].
    destruct (Hknown a Hs) as [[_ H]|[[_ H]|[[_ H]|[[_ H]|[_ H]]]]];
      rewrite H in Hname; discriminate.
  - intros Ha Hsame.
    destruct (isChainSupported b) eqn:Hb.
    + destruct (Hknown a Ha) as [[-> H]|[[-> H]|[[-> H]|[[-> H]|[-> H]]]]];
        rewrite H in Hsame;
        destruct (Hknown b Hb) as [[-> Hb']|[[-> Hb']|[[-> Hb']|[[-> Hb']|[-> Hb']]]]];
        rewrite Hb' in Hsame; first [done|discriminate].
    + rewrite (Hunknown b Hb) in Hsame.
      destruct (Hknown a Ha) as [[_ H]|[[_ H]|[[_ H]|[[_ H]|[_ H]]]]];
        rewrite H in Hsame; discriminate.
Qed.

Section Further.

Context {W : Type} (platform : Platform.t W) (this : BaseBridge.t W).

Implicit Types (s : State.t W) (config : BridgeConfig.t).

(** ** Routes *)

(** X8. [getOptimalRoute] fails with the 'No route found' error, leaving
    the state as it was, exactly when the pair has no direct entry and one
    of its two chains is Ethereum: Optimism to Ethereum, Ethereum to
    Arbitrum and Ethereum to itself are all refused. *)
Theorem getOptimalRoute_no_route_iff (fromChain toChain : Z)
    (tokenSymbol amount : string) s :
  getOptimalRoute platform this fromChain toChain tokenSymbol amount s =
    (Throw (NoRouteFound fromChain toChain), s)
  ↔ bridgeContractAt fromChain toChain = None
    ∧ (fromChain = 1 ∨ toChain = 1).
Proof.
  destruct (bridgeContractAt fromChain toChain) as [addr|] eqn:Hentry.
  - rewrite (getOptimalRoute_entry _ _ _ _ _ _
               (BridgeConfig.mk fromChain toChain "" "" "" ""))
      by (by rewrite ?Hentry).
    rewrite (estimateGas_run _ _ _ _ addr) by done. cbv zeta.
    split; [|by intros [? _]].
    destruct (Provider.getFeeData _ _) as [[fee|e] w']; simpl; [done|].
    intros [= _ Hstate]. apply (f_equal State.trace) in Hstate.
    by apply app_singleton_neq in Hstate.
  - rewrite getOptimalRoute_no_entry by done.
    destruct (Z.eqb_spec fromChain 1), (Z.eqb_spec toChain 1); simpl;
      split; try done; try tauto; intros [_ [?|?]]; done.
Qed.

(** X9. Whatever route [getOptimalRoute] returns starts at [fromChain] and
    ends at [toChain].  It is either the direct pair, with slippage 0.1 and
    exactly one fee-data query made, or the three chains through Ethereum
    with the fixed figures 45, "0.01" and 0.3 and no call made at all; the
    signer is never used. *)
Theorem getOptimalRoute_route_shape (fromChain toChain : Z)
    (tokenSymbol amount : string) s (plan : Route.t) (s' : State.t W) :
  getOptimalRoute platform this fromChain toChain tokenSymbol amount s =
    (Return plan, s') →
  head (Route.route plan) = Some fromChain
  ∧ last (Route.route plan) = Some toChain
  ∧ ((is_Some (bridgeContractAt fromChain toChain)
      ∧ Route.route plan = [fromChain; toChain]
      ∧ Route.slippage plan = 0.1%float
      ∧ State.trace s' = (State.trace s ++ [GetFeeData])%list)
     ∨ (bridgeContractAt fromChain toChain = None
        ∧ fromChain ≠ 1 ∧ toChain ≠ 1
        ∧ plan = Route.mk [fromChain; 1; toChain] 45 "0.01" 0.3%float
        ∧ s' = s)).
Proof.
  destruct (bridgeContractAt fromChain toChain) as [addr|] eqn:Hentry.
  - rewrite (getOptimalRoute_entry _ _ _ _ _ _
               (BridgeConfig.mk fromChain toChain "" "" "" ""))
      by (by rewrite ?Hentry).
    rewrite (estimateGas_run _ _ _ _ addr) by done. cbv zeta.
    destruct (Provider.getFeeData _ _) as [[fee|e] w']; simpl; [|done].
    intros [= <- <-]. simpl. split_and!; [done..|]. left. by split_and!.
  - rewrite getOptimalRoute_no_entry by done.
    destruct (Z.eqb_spec fromChain 1), (Z.eqb_spec toChain 1); simpl;
      try done.
    intros [= <- <-]. simpl. split_and!; [done..|]. right. by split_and!.
Qed.

(** X10. Neither the token symbol nor the amount has any effect on
    [getOptimalRoute]: the route, its time, cost and slippage, the failure
    and the calls made are those of the chain pair alone. *)
Theorem getOptimalRoute_ignores_token_and_amount (fromChain toChain : Z)
    (tokenSymbol amount tokenSymbol' amount' : string) s :
  getOptimalRoute platform this fromChain toChain tokenSymbol amount s =
  getOptimalRoute platform this fromChain toChain tokenSymbol' amount' s.
Proof.
  destruct (bridgeContractAt fromChain toChain) as [addr|] eqn:Hentry.
  - by rewrite !(getOptimalRoute_entry _ _ _ _ _ _
                   (BridgeConfig.mk fromChain toChain "" "" "" ""))
      by (by rewrite ?Hentry).
  - by rewrite !getOptimalRoute_no_entry.
Qed.

(** X11. Every hop of a returned route has a bridge contract, so that
    [estimateGas] and [initiateBridge] accept it, only for a direct pair
    and for Base to Base through Ethereum.  Any other route through
    Ethereum contains a hop the table does not have. *)
Theorem getOptimalRoute_hops_supported (fromChain toChain : Z)
    (tokenSymbol amount : string) s (plan : Route.t) (s' : State.t W) :
  getOptimalRoute platform this fromChain toChain tokenSymbol amount s =
    (Return plan, s') →
  forallb hopSupported (hops (Route.route plan)) = true
  ↔ is_Some (bridgeContractAt fromChain toChain)
    ∨ (fromChain = 8453 ∧ toChain = 8453).
Proof.
  destruct (bridgeContractAt fromChain toChain) as [addr|] eqn:Hentry.
  - rewrite (getOptimalRoute_entry _ _ _ _ _ _
               (BridgeConfig.mk fromChain toChain "" "" "" ""))
      by (by rewrite ?Hentry).
    rewrite (estimateGas_run _ _ _ _ addr) by done. cbv zeta.
    destruct (Provider.getFeeData _ _) as [[fee|e] w']; simpl; [|done].
    intros [= <- _]. simpl. unfold hopSupported. simpl. rewrite Hentry.
    split; [by left; eexists|]. intros _.
    rewrite andb_true_r. apply bool_decide_eq_true. by eexists.
  - rewrite getOptimalRoute_no_entry by done.
    destruct (Z.eqb_spec fromChain 1), (Z.eqb_spec toChain 1); simpl;
      try done.
    intros [= <- _]. simpl. unfold hopSupported. simpl.
    rewrite andb_true_r, andb_true_iff, !bool_decide_eq_true,
      !bridgeContractAt_is_Some.
    split.
    + intros [Hfirst Hsecond]. right.
      assert (fromChain = 8453) as -> by lia.
      assert (toChain = 8453 ∨ toChain = 10) as [->| ->] by lia; [done|].
      destruct bridgeContractAt_edges as (_ & _ & _ & [? E]).
      rewrite E in Hentry. done.
    + intros [[? [=]]|[-> ->]]. lia.
Qed.

(** ** Gas price *)

(** X12. On a supported pair the estimate reports the quoted gas price in
    decimal and charges 200000 times that price.  Without a quoted price
    both fall back to 20 gwei; a quoted price of zero is reported as "0"
    while the cost is still that of 20 gwei. *)
Theorem estimateGas_price_fallback config s (fee : FeeData.t) (w' : W) :
  is_Some (bridgeContractAt (BridgeConfig.sourceChain config)
                            (BridgeConfig.targetChain config)) →
  Provider.getFeeData (BaseBridge.provider this) (State.world s) =
    (Return fee, w') →
  ∃ g s',
    estimateGas platform this config s = (Return g, s')
    ∧ match FeeData.gasPrice fee with
      | None =>
          GasEstimate.gasPrice g = "20000000000"
          ∧ GasEstimate.totalCost g =
              Platform.formatEther platform 4000000000000000
      | Some price =>
          GasEstimate.gasPrice g = JS.toString price
          ∧ GasEstimate.totalCost g =
              Platform.formatEther platform
                (if price =? 0 then 4000000000000000 else 200000 * price)
      end.
Proof.
  intros [addr Hentry] Hfee.
  rewrite (estimateGas_run _ _ _ _ addr) by done. cbv zeta. rewrite Hfee.
  eexists _, _. split; [done|]. simpl.
  destruct (FeeData.gasPrice fee) as [price|]; simpl; [|done].
  rewrite toString_truthy. split; [done|].
  by destruct (price =? 0).
Qed.

(** ** Submission *)

(** X13. With a signer, [initiateBridge] on a pair without a bridge
    contract fails with the 'Bridge not supported' error and sends
    nothing: the signer is not called. *)
Theorem initiateBridge_unsupported_pair config s (signer : Signer.t W) :
  BaseBridge.signer this = Some signer →
  bridgeContractAt (BridgeConfig.sourceChain config)
                   (BridgeConfig.targetChain config) = None →
  initiateBridge this config s =
    (Throw (BridgeNotSupported (BridgeConfig.sourceChain config)
                               (BridgeConfig.targetChain config)), s).
Proof.
  intros Hsigner Hnone. unfold initiateBridge.
  by rewrite Hsigner, truthyBridgeContract_eq, Hnone.
Qed.

(** X14. With a signer and a supported pair, [initiateBridge] makes one
    call and hands back its answer, hash or rejection alike: [bridgeETH]
    with the amount as value when the token address is the zero address,
    [bridgeToken] otherwise.  The contract called is the one of
    [BRIDGE_CONTRACTS]; the [bridgeContract] field of the config is not
    read. *)
Theorem initiateBridge_dispatch config s (signer : Signer.t W)
    (bridgeAddress : string) :
  BaseBridge.signer this = Some signer →
  bridgeContractAt (BridgeConfig.sourceChain config)
                   (BridgeConfig.targetChain config) = Some bridgeAddress →
  (BridgeConfig.tokenAddress config = ZeroAddress →
   ∃ answer w',
     Signer.bridgeETH signer bridgeAddress (BridgeConfig.recipient config)
       (BridgeConfig.targetChain config) (BridgeConfig.amount config)
       (State.world s) = (answer, w')
     ∧ initiateBridge this config s =
         (answer,
          State.mk w'
            (State.trace s ++
             [BridgeETH bridgeAddress (BridgeConfig.recipient config)
                (BridgeConfig.targetChain config)
                (BridgeConfig.amount config)])))
  ∧ (BridgeConfig.tokenAddress config ≠ ZeroAddress →
     ∃ answer w',
       Signer.bridgeToken signer bridgeAddress
         (BridgeConfig.tokenAddress config) (BridgeConfig.amount config)
         (BridgeConfig.recipient config) (BridgeConfig.targetChain config)
         (State.world s) = (answer, w')
       ∧ initiateBridge this config s =
           (answer,
            State.mk w'
              (State.trace s ++
               [BridgeToken bridgeAddress (BridgeConfig.tokenAddress config)
                  (BridgeConfig.amount config)
                  (BridgeConfig.recipient config)
                  (BridgeConfig.targetChain config)]))).
Proof.
  intros Hsigner Hentry. unfold initiateBridge, perform.
  rewrite Hsigner, truthyBridgeContract_eq, Hentry.
  split; intros Htoken.
  - rewrite Htoken, String.eqb_refl.
    destruct (Signer.bridgeETH _ _ _ _ _ _) as [answer w']. eauto.
  - apply String.eqb_neq in Htoken. rewrite Htoken.
    destruct (Signer.bridgeToken _ _ _ _ _ _ _) as [answer w']. eauto.
Qed.

(** ** Status *)

(** X15. What a reported state says about the provider's answer:
    pending only when there was no receipt, confirmed only for a receipt
    whose status is 1, failed for any other receipt and also for a rejected
    query.  Either way one receipt query was made, for the given hash. *)
Theorem getBridgeStatus_state_sound (transactionHash : string)
    (sourceChain : Z) s (st : BridgeStatus.t) (s' : State.t W) :
  getBridgeStatus platform this transactionHash sourceChain s =
    (Return st, s') →
  State.trace s' =
    (State.trace s ++ [GetTransactionReceipt transactionHash])%list
  ∧ ∃ answer,
      Provider.getTransactionReceipt (BaseBridge.provider this)
        transactionHash (State.world s) = (answer, State.world s')
      ∧ (BridgeStatus.status st = pending → answer = Return None)
      ∧ (BridgeStatus.status st = confirmed →
         ∃ receipt,
           answer = Return (Some receipt)
           ∧ TransactionReceipt.status receipt = Some 1)
      ∧ (BridgeStatus.status st = failed →
         (∃ e, answer = Throw e)
         ∨ ∃ receipt,
             answer = Return (Some receipt)
             ∧ TransactionReceipt.status receipt ≠ Some 1).
Proof.
  rewrite getBridgeStatus_run. cbv zeta.
  destruct (Provider.getTransactionReceipt _ _ _) as [answer w'] eqn:Hquery.
  simpl. intros [= <- <-]. simpl. split; [done|].
  exists answer. split; [done|].
  destruct answer as [[receipt|]|e]; simpl.
  - destruct receipt as [[[|[]|]|]]; simpl;
      (split_and!; [done| |]; intros ?; try done; eauto).
    all: right; eexists; split; [done|]; simpl; congruence.
  - split_and!; done.
  - split_and!; [done..|]. intros _. left. eauto.
Qed.

(** X16. The [sourceChain] argument is only copied into the result: the
    query made, the state reported, the timestamp and the state left
    behind are the same for every chain id passed. *)
Theorem getBridgeStatus_sourceChain_echoed (transactionHash : string)
    (sourceChain sourceChain' : Z) s :
  ∃ st s',
    getBridgeStatus platform this transactionHash sourceChain s =
      (Return st, s')
    ∧ getBridgeStatus platform this transactionHash sourceChain' s =
        (Return (BridgeStatus.mk (BridgeStatus.transactionHash st)
                   (BridgeStatus.status st) sourceChain'
                   (BridgeStatus.targetChain st) (BridgeStatus.amount st)
                   (BridgeStatus.timestamp st)), s').
Proof. rewrite !getBridgeStatus_run. cbv zeta. by eexists _, _. Qed.

End Further.

(** ** The further properties at concrete inputs *)

(** 1999 base units: a bridge fee of 1. *)
Lemma calculateBridgeFees_fee_bounds_witness :
  ∃ b g,
    calculateBridgeFees "1999" 1 8453 =
      Return (Fees.mk (JS.toString b) (JS.toString g) (JS.toString (b + g)))
    ∧ 1000 * b ≤ 1999 < 1000 * (b + 1)
    ∧ (1999 < 1000 → b = 0)
    ∧ 0 ≤ b
    ∧ g ≤ b + g.
Proof. exact (calculateBridgeFees_fee_bounds 1999 1 8453 ltac:(lia)). Defined.

Lemma calculateBridgeFees_monotone_witness :
  ∃ fa fb g,
    calculateBridgeFees "-5" 1 10 =
      Return (Fees.mk (JS.toString fa) (JS.toString g) (JS.toString (fa + g)))
    ∧ calculateBridgeFees "2000" 1 10 =
        Return (Fees.mk (JS.toString fb) (JS.toString g)
                  (JS.toString (fb + g)))
    ∧ fa ≤ fb
    ∧ fa + g ≤ fb + g.
Proof. exact (calculateBridgeFees_monotone (-5) 2000 1 10 ltac:(lia)). Defined.

(** Minus 1999 base units: a bridge fee of -1, not -2. *)
Lemma calculateBridgeFees_negative_amount_witness :
  ∃ g,
    calculateBridgeFees "-1999" 1 10 =
      Return (Fees.mk "-1" (JS.toString g) (JS.toString (g - 1)))
    ∧ g - 1 ≤ g.
Proof.
  exact (calculateBridgeFees_negative_amount 1999 1 10 ltac:(lia)).
Defined.

Lemma bridge_entries_well_formed_witness :
  1 ≠ 8453
  ∧ isChainSupported 1 = true
  ∧ isChainSupported 8453 = true
  ∧ is_Some (tokenAddressAt "USDC" 1) ∧ is_Some (tokenAddressAt "USDC" 8453)
  ∧ is_Some (tokenAddressAt "WETH" 1) ∧ is_Some (tokenAddressAt "WETH" 8453).
Proof.
  apply (bridge_entries_well_formed 1 8453). by eexists.
Defined.

(** Optimism to Arbitrum, as planned by [getOptimalRoute]. *)
Lemma getOptimalRoute_route_shape_witness :
  head [10; 1; 42161] = Some 10 ∧ last [10; 1; 42161] = Some 42161.
Proof.
  destruct (getOptimalRoute_route_shape Example.platform
              (BaseBridge.mk Example.downProvider None) 10 42161 "WETH"
              "1000000000000000000" Example.start
              (Route.mk [10; 1; 42161] 45 "0.01" 0.3%float) Example.start
              eq_refl) as (Hhead & Hlast & _).
  exact (conj Hhead Hlast).
Defined.

(** The same route: Optimism has no bridge to Ethereum, so its first hop
    is one the table lacks. *)
Lemma getOptimalRoute_hops_supported_witness :
  forallb hopSupported (hops [10; 1; 42161]) = true
  ↔ is_Some (bridgeContractAt 10 42161) ∨ (10 = 8453 ∧ 42161 = 8453).
Proof.
  exact (getOptimalRoute_hops_supported Example.platform
           (BaseBridge.mk Example.downProvider None) 10 42161 "WETH"
           "1000000000000000000" Example.start
           (Route.mk [10; 1; 42161] 45 "0.01" 0.3%float) Example.start
           eq_refl).
Defined.

(** A provider that quotes a gas price of zero. *)
Lemma estimateGas_price_fallback_witness :
  ∃ g s',
    estimateGas Example.platform
      (BaseBridge.mk (Example.steadyProvider (Some 0) None) None)
      Example.ethereumToBase Example.start = (Return g, s')
    ∧ GasEstimate.gasPrice g = "0"
    ∧ GasEstimate.totalCost g = "0.004".
Proof.
  refine (estimateGas_price_fallback Example.platform
            (BaseBridge.mk (Example.steadyProvider (Some 0) None) None)
            Example.ethereumToBase Example.start (FeeData.mk (Some 0)) 1%nat
            _ eq_refl).
  by eexists.
Defined.

Lemma initiateBridge_unsupported_pair_witness :
  initiateBridge (BaseBridge.mk Example.downProvider (Some Example.signer))
    Example.unregisteredToBase Example.start =
    (Throw (BridgeNotSupported 999 8453), Example.start).
Proof.
  exact (initiateBridge_unsupported_pair
           (BaseBridge.mk Example.downProvider (Some Example.signer))
           Example.unregisteredToBase Example.start Example.signer
           eq_refl eq_refl).
Defined.

(** The native asset from Ethereum to Base: one [bridgeETH] call. *)
Lemma initiateBridge_dispatch_witness :
  ∃ answer w',
    Signer.bridgeETH Example.signer
      "0x3154Cf16ccdb4C6d922629664174b904d80F2C35"
      "0x1234567890123456789012345678901234567890" 8453
      "1000000000000000000" 0%nat = (answer, w')
    ∧ initiateBridge
        (BaseBridge.mk Example.downProvider (Some Example.signer))
        Example.ethereumToBase Example.start =
        (answer,
         State.mk w'
           [BridgeETH "0x3154Cf16ccdb4C6d922629664174b904d80F2C35"
              "0x1234567890123456789012345678901234567890" 8453
              "1000000000000000000"]).
Proof.
  exact (proj1 (initiateBridge_dispatch
                  (BaseBridge.mk Example.downProvider (Some Example.signer))
                  Example.ethereumToBase Example.start Example.signer
                  "0x3154Cf16ccdb4C6d922629664174b904d80F2C35"
                  eq_refl eq_refl)
               eq_refl).
Defined.

(** A confirmed status: the provider did hand over a receipt of status 1. *)
Lemma getBridgeStatus_state_sound_witness :
  ∃ receipt,
    Provider.getTransactionReceipt
      (Example.steadyProvider None (Some (TransactionReceipt.mk (Some 1))))
      "0xabcd" 0%nat = (Return (Some receipt), 1%nat)
    ∧ TransactionReceipt.status receipt = Some 1.
Proof.
  destruct (getBridgeStatus_state_sound Example.platform
              (BaseBridge.mk
                 (Example.steadyProvider None
                    (Some (TransactionReceipt.mk (Some 1)))) None)
              "0xabcd" 8453 Example.start
              (BridgeStatus.mk "0xabcd" confirmed 8453 0 "0" 1700000000000)
              (State.mk 1%nat [GetTransactionReceipt "0xabcd"]) eq_refl)
    as (_ & answer & Hquery & _ & Hconfirmed & _).
  destruct (Hconfirmed eq_refl) as (receipt & -> & Hstatus).
  exists receipt. split; [exact Hquery|exact Hstatus].
Defined.

Section Agreement.

Context {W : Type} (platform : Platform.t W) (this : BaseBridge.t W).

(** X17. [estimateGas] and [initiateBridge] refuse the same pairs: with a
    signer configured, one fails with the 'Bridge not supported' error
    before calling anyone exactly when the other does, namely when the
    pair has no entry in [BRIDGE_CONTRACTS]. *)
Theorem estimateGas_initiateBridge_same_pairs (config : BridgeConfig.t)
    (s : State.t W) (signer : Signer.t W) :
  BaseBridge.signer this = Some signer →
  (estimateGas platform this config s =
     (Throw (BridgeNotSupported (BridgeConfig.sourceChain config)
                                (BridgeConfig.targetChain config)), s)
   ↔ bridgeContractAt (BridgeConfig.sourceChain config)
                      (BridgeConfig.targetChain config) = None)
  ∧ (initiateBridge this config s =
       (Throw (BridgeNotSupported (BridgeConfig.sourceChain config)
                                  (BridgeConfig.targetChain config)), s)
     ↔ bridgeContractAt (BridgeConfig.sourceChain config)
                        (BridgeConfig.targetChain config) = None).
Proof.
  intros Hsigner.
  destruct (bridgeContractAt _ _) as [addr|] eqn:Hentry.
  - split; (split; [|done]).
    + rewrite (estimateGas_run _ _ _ _ addr) by done. cbv zeta.
      intros [= _ Hstate]. apply (f_equal State.trace) in Hstate.
      by apply app_singleton_neq in Hstate.
    + unfold initiateBridge, perform.
      rewrite Hsigner, truthyBridgeContract_eq, Hentry.
      destruct (String.eqb _ _);
        [destruct (Signer.bridgeETH _ _ _ _ _ _) as [answer w']
        |destruct (Signer.bridgeToken _ _ _ _ _ _ _) as [answer w']];
        intros [= _ Hstate]; apply (f_equal State.trace) in Hstate;
        by apply app_singleton_neq in Hstate.
  - split; (split; [done|intros _]).
    + by apply estimateGas_no_entry.
    + unfold initiateBridge.
      by rewrite Hsigner, truthyBridgeContract_eq, Hentry.
Qed.

End Agreement.

(** Ethereum to Base is refused by neither method. *)
Lemma estimateGas_initiateBridge_same_pairs_witness :
  (estimateGas Example.platform
     (BaseBridge.mk Example.downProvider (Some Example.signer))
     Example.ethereumToBase Example.start =
     (Throw (BridgeNotSupported 1 8453), Example.start)
   ↔ bridgeContractAt 1 8453 = None)
  ∧ (initiateBridge
       (BaseBridge.mk Example.downProvider (Some Example.signer))
       Example.ethereumToBase Example.start =
       (Throw (BridgeNotSupported 1 8453), Example.start)
     ↔ bridgeContractAt 1 8453 = None).
Proof.
  exact (estimateGas_initiateBridge_same_pairs Example.platform
           (BaseBridge.mk Example.downProvider (Some Example.signer))
           Example.ethereumToBase Example.start Example.signer eq_refl).
Defined.
